(** * The copyfile probes: [test.c] and [src/copyfile.c]

    Two entry points call the platform's [copyfile] primitive and report
    the result triple (return code, errno, error text):

    - [main] of [test.c], the standalone probe, copies [argv[1]] to
      [argv[2]] and exits with [errno];
    - [copyfile_] of [src/copyfile.c], the bound probe, copies ["a"] to
      ["b"] and prints through the host's [Rprintf].

    The primitive, the context allocator, [strerror] and the constants of
    [<copyfile.h>] and [<errno.h>] belong to the platform, not to the
    repository: a [Platform] record supplies them.  The probes are
    embedded as computations over an explicit [World] (errno, file
    system, output channels, the variable [s], the contexts allocated so
    far, and a log of the calls made to the primitive).

    Conventions.  Of the calls the probes make, the primitive and
    [printf] may store in errno; [Rprintf] and [strerror] only produce
    text and the allocator only produces a handle.  The value [main]
    returns is the process exit code.  The argument vector is given by
    its argument strings, program name first; the null pointer that ends
    it is the slot after the last of them. *)

From Stdlib Require Import ZArith List String Ascii Lia Bool DecimalString.
Import ListNotations.

Local Open Scope Z_scope.
Local Open Scope string_scope.

(** ** C integers *)

Module CInt.

(** [int] is 32 bits wide: a value out of range wraps to two's complement. *)
Definition wrap_int (z : Z) : Z := (z + 2 ^ 31) mod 2 ^ 32 - 2 ^ 31.

(** Conversion to [uint32_t], the type [copyfile_flags_t] of the flags
    parameter. *)
Definition to_uint32 (z : Z) : Z := z mod 2 ^ 32.

(** [a << n] on [int], as the platform's compilers compute it: the bits
    that leave the 32-bit word are dropped. *)
Definition shl (a n : Z) : Z := wrap_int (Z.shiftl a n).

(** [a | b] on [int]. *)
Definition bor (a b : Z) : Z := Z.lor a b.

(** The rendering of [%i]. *)
Definition fmt_i (z : Z) : string := NilZero.string_of_int (Z.to_int z).

End CInt.

(** ** Formatted output *)

Module Fmt.

Inductive arg : Type :=
| AInt (z : Z)
| AStr (s : string).

(** The line feed written ["\n"] in C. *)
Definition nl : string := String (ascii_of_nat 10) EmptyString.

(** [format f args] expands the directives [%i] and [%s] of [f] with
    [args], left to right; a directive without a matching argument is
    undefined and gives [None]. *)
Fixpoint format (f : string) (args : list arg) : option string :=
  match f with
  | EmptyString => Some EmptyString
  | String "%" (String "i" rest) =>
      match args with
      | AInt z :: args' => option_map (append (CInt.fmt_i z)) (format rest args')
      | _ => None
      end
  | String "%" (String "s" rest) =>
      match args with
      | AStr s :: args' => option_map (append s) (format rest args')
      | _ => None
      end
  | String c rest => option_map (String c) (format rest args)
  end.

(** The text [<result>:<errno>:<error-string>]. *)
Definition triple (res e : Z) (msg : string) : string :=
  CInt.fmt_i res ++ ":" ++ CInt.fmt_i e ++ ":" ++ msg.

End Fmt.

(** ** The macro of [src/copyfile.c] *)

(** [#define COPYFILE_DEBUG (1<<31)] *)
Definition COPYFILE_DEBUG : Z := CInt.shl 1 31.

(** ** Host values *)

(** [SEXP]: the host's null object and any other object. *)
Inductive SEXP : Type :=
| R_NilValue
| R_Object (id : positive).

(** Pointers are options: [NULL] is the null pointer of any pointer
    type. *)
Definition NULL {A : Type} : option A := None.

(** [copyfile_state_t]: a handle on a copy-operation context, or [NULL]. *)
Definition copyfile_state_t : Type := option positive.

(** [char *]: a string, or [NULL].  A string stands for the pointer to
    it. *)
Definition char_ptr : Type := option string.

Definition ptr (a : string) : char_ptr := Some a.

Coercion ptr : string >-> char_ptr.

(** One call of the primitive, as logged: its four arguments. *)
Record CopyCall : Type := mkCall {
  c_from : char_ptr;
  c_to : char_ptr;
  c_state : copyfile_state_t;
  c_flags : Z
}.

(** ** The platform *)

(** What one call of the primitive does: its return value, the value it
    stores in errno if it stores one, and the file system it leaves. *)
Record Outcome (FS : Type) : Type := mkOutcome {
  o_res : Z;
  o_errno : option Z;
  o_fs : FS
}.

Arguments mkOutcome {FS} _ _ _.
Arguments o_res {FS} _.
Arguments o_errno {FS} _.
Arguments o_fs {FS} _.

(** errno right after a call made with errno at 0: what the primitive
    stored, or the 0 it left. *)
Definition errno_after {FS : Type} (o : Outcome FS) : Z :=
  match o_errno o with
  | Some e => e
  | None => 0
  end.

(** [<copyfile.h>], [<errno.h>], [<string.h>] and [<stdio.h>] over a file
    system [FS]: the two option masks, the primitive, the allocator
    (which picks a handle, or [NULL], from the contexts that are live),
    the error number of a destination that exists, the error texts, and
    what [printf] stores in errno, if anything, when standard output has
    taken a text so far and is handed another. *)
Record Platform (FS : Type) : Type := mkPlatform {
  path_exists : FS -> string -> bool;
  COPYFILE_ALL : Z;
  COPYFILE_EXCL : Z;
  copyfile_prim : char_ptr -> char_ptr -> copyfile_state_t -> Z -> FS -> Outcome FS;
  copyfile_state_alloc_prim : list positive -> copyfile_state_t;
  EEXIST : Z;
  strerror : Z -> string;
  printf_prim : string -> string -> option Z
}.

Arguments mkPlatform {FS} _ _ _ _ _ _ _ _.
Arguments path_exists {FS} _ _ _.
Arguments COPYFILE_ALL {FS} _.
Arguments COPYFILE_EXCL {FS} _.
Arguments copyfile_prim {FS} _ _ _ _ _ _.
Arguments copyfile_state_alloc_prim {FS} _ _.
Arguments EEXIST {FS} _.
Arguments strerror {FS} _ _.
Arguments printf_prim {FS} _ _ _.

(** errno after [printf] has handed [text] to a standard output that had
    taken [sofar]: what [printf] stored, or the [e] it found. *)
Definition printf_leaves {FS : Type} (P : Platform FS) (sofar text : string)
  (e : Z) : Z :=
  match printf_prim P sofar text with
  | Some e' => e'
  | None => e
  end.

(** The same platform with another allocator. *)
Definition with_alloc {FS : Type} (P : Platform FS)
  (alloc : list positive -> copyfile_state_t) : Platform FS :=
  mkPlatform (path_exists P) (COPYFILE_ALL P) (COPYFILE_EXCL P)
             (copyfile_prim P) alloc (EEXIST P) (strerror P) (printf_prim P).

(** The primitive honours exclusive create: with the bit of
    [COPYFILE_EXCL] in the flags and a destination that exists, it
    returns -1 and stores [EEXIST] in errno. *)
Definition honours_excl {FS : Type} (P : Platform FS) : Prop :=
  forall (from to : string) (st : copyfile_state_t) (fl : Z) (fsys : FS),
    Z.land fl (CInt.to_uint32 (COPYFILE_EXCL P)) = CInt.to_uint32 (COPYFILE_EXCL P) ->
    path_exists P fsys to = true ->
    o_res (copyfile_prim P from to st fl fsys) = (-1)%Z /\
    o_errno (copyfile_prim P from to st fl fsys) = Some (EEXIST P).

(** ** The world and its computations *)

Record World (FS : Type) : Type := mkWorld {
  errno : Z;
  fs : FS;
  stdout : string;
  console : string;
  s : copyfile_state_t;
  contexts : list positive;
  calls : list CopyCall
}.

Arguments mkWorld {FS} _ _ _ _ _ _ _.
Arguments errno {FS} _.
Arguments fs {FS} _.
Arguments stdout {FS} _.
Arguments console {FS} _.
Arguments s {FS} _.
Arguments contexts {FS} _.
Arguments calls {FS} _.

(** A computation transforms the world and may be undefined. *)
Definition M (FS A : Type) : Type := World FS -> option (A * World FS).

Definition ret {FS A : Type} (a : A) : M FS A := fun w => Some (a, w).

Definition bind {FS A B : Type} (m : M FS A) (k : A -> M FS B) : M FS B :=
  fun w => match m w with
           | Some (a, w') => k a w'
           | None => None
           end.

Declare Scope probe_scope.
Delimit Scope probe_scope with probe.
Notation "x <- m ;; k" := (bind m (fun x => k))
  (at level 61, m at next level, right associativity) : probe_scope.
Notation "m ;;; k" := (bind m (fun _ => k))
  (at level 61, right associativity) : probe_scope.
Local Open Scope probe_scope.

Section Probes.

Context {FS : Type} (P : Platform FS).

Definition get_errno : M FS Z := fun w => Some (errno w, w).

Definition set_errno (e : Z) : M FS unit := fun w =>
  Some (tt, mkWorld e (fs w) (stdout w) (console w) (s w) (contexts w) (calls w)).

Definition set_s (h : copyfile_state_t) : M FS unit := fun w =>
  Some (tt, mkWorld (errno w) (fs w) (stdout w) (console w) h (contexts w) (calls w)).

(** [argv[i]]: the pointer in slot [i].  The slots that hold an argument
    string are followed by one that holds the null pointer, [argv[argc]];
    a read past that one is out of bounds and undefined. *)
Definition slot (argv : list string) (i : nat) : option char_ptr :=
  match nth_error argv i with
  | Some a => Some (ptr a)
  | None => if Nat.eqb i (List.length argv) then Some NULL else None
  end.

Definition index (argv : list string) (i : nat) : M FS char_ptr := fun w =>
  match slot argv i with
  | Some a => Some (a, w)
  | None => None
  end.

(** [copyfile(from, to, state, flags)]: the flags are converted to
    [copyfile_flags_t], the call is logged, and the platform's outcome is
    applied: the file system is replaced, and errno is stored when the
    primitive stores it. *)
Definition copyfile (from to : char_ptr) (state : copyfile_state_t) (flags : Z)
  : M FS Z :=
  fun w =>
    let fl := CInt.to_uint32 flags in
    let o := copyfile_prim P from to state fl (fs w) in
    Some (o_res o,
          mkWorld (match o_errno o with Some e => e | None => errno w end)
                  (o_fs o) (stdout w) (console w) (s w) (contexts w)
                  (calls w ++ [mkCall from to state fl])).

(** [copyfile_state_alloc()]: a new context, or [NULL]; a context that
    was allocated joins the live ones. *)
Definition copyfile_state_alloc : M FS copyfile_state_t := fun w =>
  let h := copyfile_state_alloc_prim P (contexts w) in
  Some (h,
        mkWorld (errno w) (fs w) (stdout w) (console w) (s w)
                (match h with Some p => p :: contexts w | None => contexts w end)
                (calls w)).

(** [printf(f, ...)] hands the text to standard output, and stores in
    errno what the platform's [printf] stores, if anything. *)
Definition printf (f : string) (args : list Fmt.arg) : M FS unit := fun w =>
  match Fmt.format f args with
  | Some t =>
      Some (tt, mkWorld (match printf_prim P (stdout w) t with
                         | Some e => e
                         | None => errno w
                         end)
                        (fs w) (stdout w ++ t) (console w) (s w)
                        (contexts w) (calls w))
  | None => None
  end.

(** [Rprintf(f, ...)] appends to the host's console. *)
Definition Rprintf (f : string) (args : list Fmt.arg) : M FS unit := fun w =>
  match Fmt.format f args with
  | Some t =>
      Some (tt, mkWorld (errno w) (fs w) (stdout w) (console w ++ t) (s w)
                        (contexts w) (calls w))
  | None => None
  end.

(** *** [test.c] *)

Definition main (argc : Z) (argv : list string) : M FS Z :=
  set_errno 0 ;;;
  from <- index argv 1 ;;
  to <- index argv 2 ;;
  res <- copyfile from to NULL (CInt.bor (COPYFILE_ALL P) (COPYFILE_EXCL P)) ;;
  (if (res =? -1)%Z
   then e <- get_errno ;;
        printf "%i:%i:%s" [Fmt.AInt res; Fmt.AInt e; Fmt.AStr (strerror P e)]
   else ret tt) ;;;
  get_errno.

(** *** [src/copyfile.c] *)

Definition copyfile_ : M FS SEXP :=
  set_errno 0 ;;;
  h <- copyfile_state_alloc ;;
  set_s h ;;;
  res <- copyfile "a" "b" NULL
           (CInt.bor (CInt.bor (COPYFILE_ALL P) (COPYFILE_EXCL P)) COPYFILE_DEBUG) ;;
  e <- get_errno ;;
  Rprintf ("%i:%i:%s" ++ Fmt.nl)
          [Fmt.AInt res; Fmt.AInt e; Fmt.AStr (strerror P e)] ;;;
  ret R_NilValue.

(** An entry of the host's table of callable routines. *)
Record R_CallMethodDef : Type := mkCallMethod {
  name : string;
  fun_ : M FS SEXP;
  numArgs : Z
}.

(** The table, up to its terminating entry. *)
Definition CallEntries : list R_CallMethodDef :=
  [mkCallMethod "copyfile_" copyfile_ 0].

(** The option words as the primitive receives them. *)
Definition main_flags : Z :=
  CInt.to_uint32 (CInt.bor (COPYFILE_ALL P) (COPYFILE_EXCL P)).

Definition bound_flags : Z :=
  CInt.to_uint32
    (CInt.bor (CInt.bor (COPYFILE_ALL P) (COPYFILE_EXCL P)) COPYFILE_DEBUG).

End Probes.

Arguments R_CallMethodDef FS : clear implicits.

(** ** A sample platform

    Darwin's values of the constants and a small file system (paths with
    their contents), on which the probes can be run.  Its primitive
    refuses a destination that exists when the exclusive-create bit is
    set, fails on a source that is missing, and copies otherwise. *)

Module Darwin.

Definition FS : Type := list (string * string).

Fixpoint lookup (fsys : FS) (p : string) : option string :=
  match fsys with
  | [] => None
  | (q, c) :: rest => if String.eqb p q then Some c else lookup rest p
  end.

Definition path_exists (fsys : FS) (p : string) : bool :=
  match lookup fsys p with
  | Some _ => true
  | None => false
  end.

Definition COPYFILE_ALL : Z := 15.
Definition COPYFILE_EXCL : Z := Z.shiftl 1 17.
Definition ENOENT : Z := 2.
Definition EBADF : Z := 9.
Definition EEXIST : Z := 17.
Definition EINVAL : Z := 22.

Definition copyfile_prim (from to : char_ptr) (state : copyfile_state_t)
  (flags : Z) (fsys : FS) : Outcome FS :=
  match from, to with
  | Some from, Some to =>
      if Z.testbit flags 17 && path_exists fsys to
      then mkOutcome (-1) (Some EEXIST) fsys
      else match lookup fsys from with
           | None => mkOutcome (-1) (Some ENOENT) fsys
           | Some c => mkOutcome 0 None ((to, c) :: fsys)
           end
  | _, _ => mkOutcome (-1) (Some EINVAL) fsys
  end.

(** The allocator answers a handle above every live one. *)
Definition copyfile_state_alloc_prim (live : list positive) : copyfile_state_t :=
  Some (Pos.succ (fold_right Pos.max 1%positive live)).

Definition strerror (e : Z) : string :=
  if (e =? 0)%Z then "Undefined error: 0"
  else if (e =? ENOENT)%Z then "No such file or directory"
  else if (e =? EBADF)%Z then "Bad file descriptor"
  else if (e =? EEXIST)%Z then "File exists"
  else if (e =? EINVAL)%Z then "Invalid argument"
  else "Unknown error: " ++ CInt.fmt_i e.

(** Standard output is open: [printf] leaves errno alone. *)
Definition platform : Platform FS :=
  mkPlatform path_exists COPYFILE_ALL COPYFILE_EXCL copyfile_prim
             copyfile_state_alloc_prim EEXIST strerror (fun _ _ => None).

(** Standard output is closed: on a stream that has taken nothing yet
    [printf] stores [EBADF] in errno. *)
Definition closed_stdout : Platform FS :=
  mkPlatform path_exists COPYFILE_ALL COPYFILE_EXCL copyfile_prim
             copyfile_state_alloc_prim EEXIST strerror
             (fun sofar _ => match sofar with
                             | EmptyString => Some EBADF
                             | _ => None
                             end).

(** A world in which only ["a"] exists, and one in which ["b"] does too. *)
Definition fresh (fsys : FS) : World FS := mkWorld 0 fsys "" "" NULL [] [].

Definition only_a : World FS := fresh [("a", "data")].

Definition a_and_b : World FS := fresh [("a", "data"); ("b", "old")].

End Darwin.

(** ** Repeated invocation, and what else the platform may promise *)

(** The host invoking a routine [n] times in a row, collecting what it
    returns. *)
Fixpoint invocations {FS A : Type} (n : nat) (m : M FS A) : M FS (list A) :=
  match n with
  | O => ret []
  | S k => a <- m ;; l <- invocations k m ;; ret (a :: l)
  end.

(** The primitive creates its destination: when it returns 0 the
    destination exists in the file system it leaves. *)
Definition creates_destination {FS : Type} (P : Platform FS) : Prop :=
  forall (from to : string) (st : copyfile_state_t) (fl : Z) (fsys : FS),
    o_res (copyfile_prim P from to st fl fsys) = 0%Z ->
    path_exists P (o_fs (copyfile_prim P from to st fl fsys)) to = true.

(** The allocator never fails and never answers a context that is
    live. *)
Definition allocates_fresh {FS : Type} (P : Platform FS) : Prop :=
  forall live : list positive,
    exists h : positive,
      copyfile_state_alloc_prim P live = Some h /\ ~ In h live.

(** A platform without files whose primitive always answers the same
    return value and errno, whose allocator always answers [NULL], and
    whose [printf] leaves errno alone. *)
Module Stub.

Definition platform (res : Z) (err : option Z) : Platform unit :=
  mkPlatform (fun _ _ => false) Darwin.COPYFILE_ALL Darwin.COPYFILE_EXCL
             (fun _ _ _ _ fsys => mkOutcome res err fsys)
             (fun _ => NULL) Darwin.EEXIST Darwin.strerror (fun _ _ => None).

Definition world : World unit := mkWorld 0 tt "" "" NULL [] [].

End Stub.

(** ** Registration with the host: [R_init_copyfile] *)

Section Host.

Context {FS : Type} (P : Platform FS).

(** What the host keeps of a loaded library: whether it has a handle for
    symbol search, its four tables of registered routines (those of the
    [.C], [.Fortran] and [.External] interfaces by name only), and
    whether a routine that is not registered is searched for by symbol. *)
Record DllInfo : Type := mkDll {
  handle : bool;
  CSymbols : list string;
  CallSymbols : list (R_CallMethodDef FS);
  FortranSymbols : list string;
  ExternalSymbols : list string;
  useDynamicSymbols : bool
}.

(** [CallEntries] as the source writes it, with the entry of null name
    ([None]) that ends it. *)
Definition CallEntries_terminated : list (option (R_CallMethodDef FS)) :=
  [Some (mkCallMethod "copyfile_" (copyfile_ P) 0); None].

(** The entries of a table up to the first one of null name; reading past
    the end of a table that has none is undefined. *)
Fixpoint entries {A : Type} (table : list (option A)) : option (list A) :=
  match table with
  | [] => None
  | None :: _ => Some []
  | Some r :: rest => option_map (cons r) (entries rest)
  end.

(** [R_registerRoutines(info, croutines, callRoutines, fortranRoutines,
    externalRoutines)]: symbol search is switched on when there is a
    handle; each table that is not [NULL] replaces the one registered, a
    [NULL] one leaves it. *)
Definition R_registerRoutines (info : DllInfo)
  (croutines : option (list (option string)))
  (callRoutines : option (list (option (R_CallMethodDef FS))))
  (fortranRoutines externalRoutines : option (list (option string)))
  : option DllInfo :=
  let table {A : Type} (new : option (list (option A))) (old : list A) :=
    match new with
    | Some t => entries t
    | None => Some old
    end in
  match table croutines (CSymbols info), table callRoutines (CallSymbols info),
        table fortranRoutines (FortranSymbols info),
        table externalRoutines (ExternalSymbols info) with
  | Some c, Some k, Some f, Some e => Some (mkDll (handle info) c k f e (handle info))
  | _, _, _, _ => None
  end.

(** [R_useDynamicSymbols(info, value)] sets the switch and returns what
    it was. *)
Definition R_useDynamicSymbols (info : DllInfo) (value : bool) : bool * DllInfo :=
  (useDynamicSymbols info,
   mkDll (handle info) (CSymbols info) (CallSymbols info) (FortranSymbols info)
         (ExternalSymbols info) value).

(** [void R_init_copyfile(DllInfo *dll)] *)
Definition R_init_copyfile (dll : DllInfo) : option DllInfo :=
  match R_registerRoutines dll None (Some CallEntries_terminated) None None with
  | Some d => Some (snd (R_useDynamicSymbols d false))
  | None => None
  end.

End Host.

Arguments DllInfo FS : clear implicits.

(** ** Auxiliary facts *)

Lemma append_empty_r (t : string) : t ++ "" = t.
Proof.
  induction t as [|c t IH]; simpl; [reflexivity | now rewrite IH].
Qed.

Lemma append_same_prefix (p t u : string) : p ++ t = p ++ u -> t = u.
Proof.
  induction p as [|c p IH]; simpl; intros H; [exact H |].
  injection H as H. now apply IH.
Qed.

Lemma append_grows (p t : string) : p ++ t = p -> t = "".
Proof.
  intros H. apply (append_same_prefix p). now rewrite append_empty_r.
Qed.

Lemma append_assoc (p t u : string) : (p ++ t) ++ u = p ++ t ++ u.
Proof.
  induction p as [|c p IH]; simpl; [reflexivity | now rewrite IH].
Qed.

Lemma format_triple (res e : Z) (msg : string) :
  Fmt.format "%i:%i:%s" [Fmt.AInt res; Fmt.AInt e; Fmt.AStr msg]
  = Some (Fmt.triple res e msg).
Proof.
  unfold Fmt.triple. cbn. now rewrite append_empty_r.
Qed.

Lemma format_triple_nl (res e : Z) (msg : string) :
  Fmt.format ("%i:%i:%s" ++ Fmt.nl) [Fmt.AInt res; Fmt.AInt e; Fmt.AStr msg]
  = Some (Fmt.triple res e msg ++ Fmt.nl).
Proof.
  unfold Fmt.triple. cbn.
  rewrite !append_assoc. cbn. now rewrite !append_assoc.
Qed.

Lemma fmt_i_minus_one : CInt.fmt_i (-1) = "-1".
Proof. reflexivity. Qed.

Lemma triple_not_empty (res e : Z) (msg : string) :
  res = (-1)%Z -> Fmt.triple res e msg <> "".
Proof.
  intros ->. unfold Fmt.triple. rewrite fmt_i_minus_one. discriminate.
Qed.

Lemma to_uint32_land (z : Z) : CInt.to_uint32 z = Z.land z (Z.ones 32).
Proof.
  unfold CInt.to_uint32. now rewrite Z.land_ones by lia.
Qed.

Lemma to_uint32_lor (a b : Z) :
  CInt.to_uint32 (Z.lor a b) = Z.lor (CInt.to_uint32 a) (CInt.to_uint32 b).
Proof.
  rewrite !to_uint32_land. apply Z.land_lor_distr_l.
Qed.

Lemma debug_as_uint32 : CInt.to_uint32 COPYFILE_DEBUG = (2 ^ 31)%Z.
Proof. reflexivity. Qed.

Lemma pow2_31_testbit (i : Z) : Z.testbit (2 ^ 31) i = (i =? 31)%Z.
Proof.
  destruct (Z.eqb_spec i 31) as [-> | Hne].
  - reflexivity.
  - apply Z.pow2_bits_false. lia.
Qed.

(** ** What the probes compute *)

Section Runs.

Context {FS : Type} (P : Platform FS).

(** The standalone probe on a vector whose slots 1 and 2 can be read. *)
Lemma main_run_slots (argc : Z) (argv : list string) (from to : char_ptr)
  (w : World FS) :
  slot argv 1 = Some from ->
  slot argv 2 = Some to ->
  main P argc argv w =
  let o := copyfile_prim P from to NULL (main_flags P) (fs w) in
  let e := errno_after o in
  let t := Fmt.triple (o_res o) e (strerror P e) in
  let e' := if (o_res o =? -1)%Z then printf_leaves P (stdout w) t e else e in
  Some (e',
        mkWorld e' (o_fs o)
                (if (o_res o =? -1)%Z then stdout w ++ t else stdout w)
                (console w) (s w) (contexts w)
                (calls w ++ [mkCall from to NULL (main_flags P)])).
Proof.
  intros Hfrom Hto.
  unfold main, bind, set_errno, index, copyfile, get_errno, printf, ret.
  rewrite Hfrom, Hto.
  cbn [errno fs stdout console s contexts calls].
  fold (main_flags P).
  set (o := copyfile_prim P from to NULL (main_flags P) (fs w)).
  fold (errno_after o).
  destruct (o_res o =? -1)%Z eqn:Hres.
  - cbn [errno]. rewrite format_triple. reflexivity.
  - reflexivity.
Qed.

(** The standalone probe on a vector with both path slots filled. *)
Lemma main_run (argc : Z) (prog from to : string) (rest : list string)
  (w : World FS) :
  main P argc (prog :: from :: to :: rest) w =
  let o := copyfile_prim P from to NULL (main_flags P) (fs w) in
  let e := errno_after o in
  let t := Fmt.triple (o_res o) e (strerror P e) in
  let e' := if (o_res o =? -1)%Z then printf_leaves P (stdout w) t e else e in
  Some (e',
        mkWorld e' (o_fs o)
                (if (o_res o =? -1)%Z then stdout w ++ t else stdout w)
                (console w) (s w) (contexts w)
                (calls w ++ [mkCall from to NULL (main_flags P)])).
Proof.
  now apply main_run_slots.
Qed.

(** The bound probe. *)
Lemma copyfile__run (w : World FS) :
  copyfile_ P w =
  let h := copyfile_state_alloc_prim P (contexts w) in
  let o := copyfile_prim P "a" "b" NULL (bound_flags P) (fs w) in
  let e := errno_after o in
  Some (R_NilValue,
        mkWorld e (o_fs o) (stdout w)
                (console w ++ Fmt.triple (o_res o) e (strerror P e) ++ Fmt.nl)
                h
                (match h with Some p => p :: contexts w | None => contexts w end)
                (calls w ++ [mkCall "a" "b" NULL (bound_flags P)])).
Proof.
  unfold copyfile_, bind, set_errno, copyfile_state_alloc, set_s, copyfile,
    get_errno, Rprintf, ret.
  cbn [errno fs stdout console s contexts calls].
  fold (bound_flags P).
  set (o := copyfile_prim P "a" "b" NULL (bound_flags P) (fs w)).
  fold (errno_after o).
  rewrite format_triple_nl. reflexivity.
Qed.

End Runs.

(** ** The standalone probe *)

Section Standalone.

Context {FS : Type} (P : Platform FS).

Lemma main_undefined (argc : Z) (argv : list string) (w : World FS) :
  slot argv 1 = None \/ slot argv 2 = None -> main P argc argv w = None.
Proof.
  intros Hslot. unfold main, bind, set_errno, index.
  destruct (slot argv 1) as [from |]; [| reflexivity].
  destruct Hslot as [Hfrom | Hto]; [discriminate | now rewrite Hto].
Qed.

Lemma slots_in_bounds (argv : list string) :
  (exists from to : char_ptr, slot argv 1 = Some from /\ slot argv 2 = Some to)
  <-> (2 <= List.length argv)%nat.
Proof.
  destruct argv as [|prog [|from [|to rest]]]; cbn; split; try lia.
  - intros (a & b & Ha & _). discriminate.
  - intros (a & b & _ & Hb). discriminate.
  - intros _. now exists (ptr from), NULL.
  - intros _. now exists (ptr from), (ptr to).
Qed.

(** C2: the standalone probe writes the return code, the errno that the
    call left and the text of that errno to standard output exactly when
    the primitive returned -1; otherwise standard output is left as it
    was. *)
Theorem main_prints_iff_error (argc : Z) (prog from to : string)
  (rest : list string) (w : World FS) :
  let o := copyfile_prim P from to NULL (main_flags P) (fs w) in
  exists (e : Z) (w' : World FS),
    main P argc (prog :: from :: to :: rest) w = Some (e, w') /\
    e = errno w' /\
    (o_res o <> (-1)%Z -> e = errno_after o) /\
    stdout w' = stdout w ++ (if (o_res o =? -1)%Z
                             then Fmt.triple (o_res o) (errno_after o)
                                    (strerror P (errno_after o))
                             else "") /\
    (stdout w' <> stdout w <-> o_res o = (-1)%Z) /\
    console w' = console w.
Proof.
  intros o. rewrite main_run. cbv zeta. fold o.
  eexists _, _. split; [reflexivity |]. cbn [stdout console errno].
  split; [reflexivity |].
  destruct (Z.eqb_spec (o_res o) (-1)) as [Hres | Hres].
  - repeat split; trivial; try (intros Hne; contradiction).
    intros _ Hsame. apply append_grows in Hsame.
    now apply (triple_not_empty _ (errno_after o) (strerror P (errno_after o))) in Hres.
  - rewrite append_empty_r. repeat split; trivial.
    + intros Hdiff. now contradiction Hdiff.
    + intros Habs. now contradiction Hres.
Qed.

(** C9 (as amended): the standalone probe reads slots 1 and 2 of the
    argument vector whatever the argument count says.  Both reads are
    within bounds, and the probe is defined, exactly when the vector holds
    the program name and at least one path argument; with exactly one,
    slot 2 is the null pointer that ends the vector.  Both slots hold an
    argument string exactly when there are at least two path arguments. *)
Theorem main_reads_slots_unchecked (argv : list string) (w : World FS) :
  (forall argc argc' : Z, main P argc argv w = main P argc' argv w) /\
  ((exists from to : char_ptr,
       index argv 1 w = Some (from, w) /\ index argv 2 w = Some (to, w))
   <-> (2 <= List.length argv)%nat) /\
  (forall argc : Z, main P argc argv w <> None <-> (2 <= List.length argv)%nat) /\
  (List.length argv = 2%nat -> index argv 2 w = Some (NULL, w)) /\
  ((exists from to : string,
       index argv 1 w = Some (ptr from, w) /\ index argv 2 w = Some (ptr to, w))
   <-> (3 <= List.length argv)%nat).
Proof.
  split; [reflexivity |]. split; [| split; [| split]].
  - rewrite <- slots_in_bounds. unfold index.
    split; intros (from & to & Hfrom & Hto); exists from, to.
    + destruct (slot argv 1), (slot argv 2); try discriminate.
      injection Hfrom as ->. injection Hto as ->. now split.
    + now rewrite Hfrom, Hto.
  - intros argc. rewrite <- slots_in_bounds. split.
    + intros Hdef.
      destruct (slot argv 1) as [from |] eqn:Hfrom;
        [| now rewrite main_undefined in Hdef by now left].
      destruct (slot argv 2) as [to |] eqn:Hto;
        [| now rewrite main_undefined in Hdef by now right].
      now exists from, to.
    + intros (from & to & Hfrom & Hto).
      rewrite (main_run_slots P argc argv from to w Hfrom Hto). discriminate.
  - destruct argv as [|prog [|from [|to rest]]]; cbn [List.length]; try lia.
    reflexivity.
  - destruct argv as [|prog [|from [|to rest]]]; unfold index;
      cbn [slot nth_error List.length Nat.eqb]; split; try lia.
    + intros (a & b & Ha & _). discriminate.
    + intros (a & b & Ha & _). discriminate.
    + intros (a & b & _ & Hb). discriminate.
    + intros _. now exists from, to.
Qed.

End Standalone.

(** ** The bound probe *)

Section Bound.

Context {FS : Type} (P : Platform FS).

(** C4: the bound probe takes no argument (it is a computation of its
    own, registered with 0 arguments) and calls the primitive exactly
    once, on ["a"] and ["b"] with a null state and with the fixed option
    word made of the copy-all mask, the exclusive-create flag and the
    debug bit. *)
Theorem copyfile__calls_once (w : World FS) :
  exists w' : World FS,
    copyfile_ P w = Some (R_NilValue, w') /\
    calls w' = (calls w ++ [mkCall "a" "b" NULL (bound_flags P)])%list /\
    bound_flags P
    = Z.lor (Z.lor (CInt.to_uint32 (COPYFILE_ALL P))
                   (CInt.to_uint32 (COPYFILE_EXCL P)))
            (CInt.to_uint32 COPYFILE_DEBUG) /\
    map (fun r => (name r, numArgs r)) (CallEntries P) = [("copyfile_", 0%Z)].
Proof.
  rewrite copyfile__run. cbv zeta. eexists. split; [reflexivity |].
  cbn [calls]. split; [reflexivity |]. split; [| reflexivity].
  unfold bound_flags, CInt.bor. now rewrite !to_uint32_lor.
Qed.

(** C5: whatever the copy call does, the bound probe returns the host's
    null value; the return value therefore says nothing of the outcome. *)
Theorem copyfile__returns_nil (w : World FS) :
  option_map fst (copyfile_ P w) = Some R_NilValue.
Proof.
  now rewrite copyfile__run.
Qed.

(** C7 (as amended): on every invocation the bound probe appends to the
    host's console the copy call's result, errno as the call left it and
    the text of that errno, as [<result>:<errno>:<error-string>] followed
    by a line feed; standard output is not touched. *)
Theorem copyfile__prints_line (w : World FS) :
  let o := copyfile_prim P "a" "b" NULL (bound_flags P) (fs w) in
  exists w' : World FS,
    copyfile_ P w = Some (R_NilValue, w') /\
    errno w' = errno_after o /\
    console w'
    = console w ++ Fmt.triple (o_res o) (errno w') (strerror P (errno w')) ++ Fmt.nl /\
    stdout w' = stdout w.
Proof.
  intros o. rewrite copyfile__run. cbv zeta. fold o.
  eexists. split; [reflexivity |]. cbn [errno console stdout].
  repeat split.
Qed.

(** C10: [COPYFILE_DEBUG] is 1 shifted left by 31; as an [int] it is the
    sign bit alone (the least 32-bit integer), in the 32-bit flags word it
    is 2^31, whose only bit is bit 31; and the option word the bound probe
    passes is the bitwise or of the copy-all mask, the exclusive-create
    flag and 2^31. *)
Theorem debug_bit_is_bit_31 (w : World FS) :
  COPYFILE_DEBUG = CInt.shl 1 31 /\
  Z.shiftl 1 31 = (2 ^ 31)%Z /\
  COPYFILE_DEBUG = (- 2 ^ 31)%Z /\
  CInt.to_uint32 COPYFILE_DEBUG = (2 ^ 31 mod 2 ^ 32)%Z /\
  CInt.to_uint32 COPYFILE_DEBUG = (2 ^ 31)%Z /\
  (forall i : Z, Z.testbit (CInt.to_uint32 COPYFILE_DEBUG) i = (i =? 31)%Z) /\
  exists w' : World FS,
    copyfile_ P w = Some (R_NilValue, w') /\
    calls w'
    = (calls w ++ [mkCall "a" "b" NULL
                     (Z.lor (Z.lor (CInt.to_uint32 (COPYFILE_ALL P))
                                   (CInt.to_uint32 (COPYFILE_EXCL P)))
                            (2 ^ 31))])%list.
Proof.
  repeat (split; [reflexivity |]).
  split.
  - intros i. rewrite debug_as_uint32. apply pow2_31_testbit.
  - rewrite copyfile__run. cbv zeta. eexists. split; [reflexivity |].
    cbn [calls]. do 3 f_equal.
    unfold bound_flags, CInt.bor. rewrite !to_uint32_lor.
    now rewrite debug_as_uint32.
Qed.

End Bound.

(** ** The two probes side by side *)

Section Compare.

Context {FS : Type} (P : Platform FS).

(** C3 (as amended): on ["a"] and ["b"] the standalone probe and the
    bound probe make the same call up to the debug bit: same paths, null
    state, and option words that differ in bit 31 only.  When the
    primitive's outcome is the same for both, they leave the same file
    system; if it returned -1 the bound probe prints on the console what
    the standalone probe prints on standard output (the result, the errno
    the call left and its text), plus a line feed; otherwise the
    standalone probe prints nothing and the bound probe still prints its
    line.  The bound probe leaves the errno the call left, and so does
    the standalone probe unless it printed and [printf] stored in
    errno. *)
Theorem bound_matches_standalone (argc : Z) (prog : string) (w : World FS) :
  copyfile_prim P "a" "b" NULL (main_flags P) (fs w)
  = copyfile_prim P "a" "b" NULL (bound_flags P) (fs w) ->
  let o := copyfile_prim P "a" "b" NULL (bound_flags P) (fs w) in
  exists (e : Z) (w1 w2 : World FS) (c1 c2 : CopyCall) (t : string),
    main P argc [prog; "a"; "b"] w = Some (e, w1) /\
    copyfile_ P w = Some (R_NilValue, w2) /\
    calls w1 = (calls w ++ [c1])%list /\
    calls w2 = (calls w ++ [c2])%list /\
    c_from c1 = c_from c2 /\ c_to c1 = c_to c2 /\ c_state c1 = c_state c2 /\
    c_flags c2 = Z.lor (c_flags c1) (2 ^ 31) /\
    (forall i : Z, i <> 31%Z -> Z.testbit (c_flags c2) i = Z.testbit (c_flags c1) i) /\
    e = errno w1 /\ errno w2 = errno_after o /\
    errno w1 = (if (o_res o =? -1)%Z
                then printf_leaves P (stdout w) t (errno w2)
                else errno w2) /\
    fs w1 = fs w2 /\
    stdout w1 = stdout w ++ t /\
    (o_res o = (-1)%Z ->
     t = Fmt.triple (o_res o) (errno w2) (strerror P (errno w2)) /\
     console w2 = console w ++ t ++ Fmt.nl) /\
    (o_res o <> (-1)%Z ->
     t = "" /\ errno w1 = errno w2 /\
     console w2
     = console w ++ Fmt.triple (o_res o) (errno w2) (strerror P (errno w2)) ++ Fmt.nl).
Proof.
  intros Hsame o.
  rewrite main_run, copyfile__run. cbv zeta. rewrite Hsame. fold o.
  assert (Hflags : bound_flags P = Z.lor (main_flags P) (2 ^ 31)).
  { unfold bound_flags, main_flags, CInt.bor.
    now rewrite (to_uint32_lor _ COPYFILE_DEBUG), debug_as_uint32. }
  eexists _, _, _, _, _.
  exists (if (o_res o =? -1)%Z
          then Fmt.triple (o_res o) (errno_after o) (strerror P (errno_after o))
          else "").
  split; [reflexivity |]. split; [reflexivity |].
  cbn [calls errno fs stdout console].
  split; [reflexivity |]. split; [reflexivity |].
  cbn [c_from c_to c_state c_flags].
  repeat (split; [reflexivity |]).
  split; [exact Hflags |].
  split.
  { intros i Hi. rewrite Hflags, Z.lor_spec, pow2_31_testbit.
    destruct (Z.eqb_spec i 31); [contradiction | apply orb_false_r]. }
  repeat (split; [reflexivity |]).
  destruct (Z.eqb_spec (o_res o) (-1)) as [Hres | Hres].
  - repeat (split; [reflexivity |]).
    split; [now split | intros Hne; contradiction].
  - repeat (split; [reflexivity |]).
    split; [now rewrite append_empty_r |].
    split; [intros Heq; contradiction | now repeat split].
Qed.

(** C8: the context that the bound probe allocates goes to [s] and
    nowhere else: the primitive is called with a null state, and with any
    two allocators the probe makes the same call, gets the same result and
    errno, and prints the same text. *)
Theorem allocation_is_not_used
  (alloc1 alloc2 : list positive -> copyfile_state_t) (w : World FS) :
  exists (w1 w2 : World FS) (c : CopyCall),
    copyfile_ (with_alloc P alloc1) w = Some (R_NilValue, w1) /\
    copyfile_ (with_alloc P alloc2) w = Some (R_NilValue, w2) /\
    s w1 = alloc1 (contexts w) /\ s w2 = alloc2 (contexts w) /\
    calls w1 = (calls w ++ [c])%list /\ calls w2 = (calls w ++ [c])%list /\
    c_state c = NULL /\
    c = mkCall "a" "b" NULL (bound_flags P) /\
    errno w1 = errno_after (copyfile_prim P "a" "b" NULL (bound_flags P) (fs w)) /\
    errno w1 = errno w2 /\ fs w1 = fs w2 /\
    console w1 = console w2 /\ stdout w1 = stdout w2.
Proof.
  rewrite !copyfile__run. cbv zeta.
  eexists _, _, _. split; [reflexivity |]. split; [reflexivity |].
  cbn [s calls errno fs console stdout with_alloc copyfile_state_alloc_prim].
  repeat split.
Qed.

End Compare.

(** ** The probes on the sample platform *)

Lemma darwin_honours_excl : honours_excl Darwin.platform.
Proof.
  intros from to st fl fsys Hbit Hdst.
  change (Darwin.path_exists fsys to = true) in Hdst.
  change (copyfile_prim Darwin.platform from to st fl fsys)
    with (Darwin.copyfile_prim from to st fl fsys).
  change (EEXIST Darwin.platform) with Darwin.EEXIST.
  assert (Hset : Z.testbit fl 17 = true).
  { apply (f_equal (fun z => Z.testbit z 17)) in Hbit.
    rewrite Z.land_spec in Hbit.
    change (Z.testbit (CInt.to_uint32 (COPYFILE_EXCL Darwin.platform)) 17)
      with true in Hbit.
    now rewrite andb_true_r in Hbit. }
  unfold Darwin.copyfile_prim, ptr. rewrite Hset, Hdst. now split.
Qed.

Example main_copies_to_new_destination :
  option_map fst (main Darwin.platform 3 ["test"; "a"; "b"] Darwin.only_a) = Some 0%Z.
Proof. reflexivity. Qed.

Example bound_flags_on_darwin :
  main_flags Darwin.platform = 131087%Z /\
  bound_flags Darwin.platform = 2147614735%Z.
Proof. split; reflexivity. Qed.

Example main_missing_source :
  option_map fst (main Darwin.platform 3 ["test"; "x"; "y"] Darwin.only_a) = Some Darwin.ENOENT.
Proof. reflexivity. Qed.

(** C1, at a failing run: the destination exists and standard output is
    closed.  The call leaves errno at 17; [printf], on the way to
    [return errno], stores 9; the probe exits with 9. *)
Lemma main_exit_code_is_not_the_calls_errno :
  exists (res : Z) (w1 w' : World Darwin.FS),
    (set_errno 0 ;;;
     copyfile Darwin.closed_stdout "a" "b" NULL
       (CInt.bor (COPYFILE_ALL Darwin.closed_stdout)
                 (COPYFILE_EXCL Darwin.closed_stdout))) Darwin.a_and_b
    = Some (res, w1) /\
    res = (-1)%Z /\ errno w1 = 17%Z /\
    main Darwin.closed_stdout 3 ["test"; "a"; "b"] Darwin.a_and_b = Some (9%Z, w') /\
    9%Z <> errno w1.
Proof.
  eexists _, _, _. split; [reflexivity |]. cbn.
  repeat split. discriminate.
Qed.

(** C6, at a failing run: the destination exists, the primitive refuses
    it with [EEXIST] and the text printed is that of [EEXIST], but with
    standard output closed the exit code is [EBADF], not [EEXIST]. *)
Lemma main_destination_exists_exit_code :
  honours_excl Darwin.closed_stdout /\
  path_exists Darwin.closed_stdout (fs Darwin.a_and_b) "b" = true /\
  exists w' : World Darwin.FS,
    main Darwin.closed_stdout 3 ["test"; "a"; "b"] Darwin.a_and_b
    = Some (Darwin.EBADF, w') /\
    Darwin.EBADF <> EEXIST Darwin.closed_stdout /\
    stdout w' = "-1:17:File exists" /\
    strerror Darwin.closed_stdout Darwin.EBADF <> "File exists".
Proof.
  split; [exact darwin_honours_excl |]. split; [reflexivity |].
  eexists. split; [reflexivity |]. cbn. repeat split; discriminate.
Qed.

(** C9, refuted as stated: with a single path argument both reads return
    a value, slot 2 being the null pointer, and the probe runs, calling
    the primitive with a null destination. *)
Lemma one_path_argument_is_in_bounds :
  ~ (3 <= List.length ["test"; "a"])%nat /\
  index (FS := Darwin.FS) ["test"; "a"] 1 Darwin.only_a
  = Some (ptr "a", Darwin.only_a) /\
  index (FS := Darwin.FS) ["test"; "a"] 2 Darwin.only_a
  = Some (NULL, Darwin.only_a) /\
  exists (e : Z) (w' : World Darwin.FS),
    main Darwin.platform 2 ["test"; "a"] Darwin.only_a = Some (e, w') /\
    calls w' = [mkCall "a" NULL NULL (main_flags Darwin.platform)].
Proof.
  split; [cbn; lia |]. split; [reflexivity |]. split; [reflexivity |].
  eexists _, _. split; reflexivity.
Qed.

(** C3, refuted as stated: the copy succeeds for both probes with the
    same outcome, the standalone probe prints nothing and the bound probe
    prints a line. *)
Lemma probes_print_differently :
  exists (e : Z) (w1 w2 : World Darwin.FS),
    copyfile_prim Darwin.platform "a" "b" NULL (main_flags Darwin.platform) (fs Darwin.only_a)
    = copyfile_prim Darwin.platform "a" "b" NULL (bound_flags Darwin.platform) (fs Darwin.only_a) /\
    main Darwin.platform 3 ["test"; "a"; "b"] Darwin.only_a = Some (e, w1) /\
    copyfile_ Darwin.platform Darwin.only_a = Some (R_NilValue, w2) /\
    stdout w1 = "" /\
    console w2 = "0:0:Undefined error: 0" ++ Fmt.nl /\
    stdout w1 <> console w2.
Proof.
  eexists _, _, _. split; [reflexivity |].
  split; [reflexivity |]. split; [reflexivity |].
  cbn. repeat split. discriminate.
Qed.

(** The destination exists for both probes: the console holds the text
    of standard output and a line feed. *)
Lemma bound_matches_standalone_on_darwin :
  copyfile_prim Darwin.platform "a" "b" NULL (main_flags Darwin.platform) (fs Darwin.a_and_b)
  = copyfile_prim Darwin.platform "a" "b" NULL (bound_flags Darwin.platform) (fs Darwin.a_and_b) /\
  exists (e : Z) (w1 w2 : World Darwin.FS),
    main Darwin.platform 3 ["test"; "a"; "b"] Darwin.a_and_b = Some (e, w1) /\
    copyfile_ Darwin.platform Darwin.a_and_b = Some (R_NilValue, w2) /\
    console w2 = stdout w1 ++ Fmt.nl.
Proof.
  split; [reflexivity |].
  destruct (bound_matches_standalone Darwin.platform 3 "test" Darwin.a_and_b eq_refl)
    as (e & w1 & w2 & c1 & c2 & t & Hmain & Hbound & _ & _ & _ & _ & _ & _ & _
        & _ & _ & _ & _ & Hout & Hfail & _).
  exists e, w1, w2. split; [exact Hmain |]. split; [exact Hbound |].
  destruct (Hfail eq_refl) as [_ Hcons].
  rewrite Hcons, Hout. reflexivity.
Defined.

(** C7, refuted as stated: the text on the console is not the bare
    triple, it ends with a line feed. *)
Lemma console_text_has_line_feed :
  exists w' : World Darwin.FS,
    copyfile_ Darwin.platform Darwin.only_a = Some (R_NilValue, w') /\
    console w' = "0:0:Undefined error: 0" ++ Fmt.nl /\
    console w'
    <> console Darwin.only_a ++ Fmt.triple 0 (errno w') (strerror Darwin.platform (errno w')).
Proof.
  eexists. split; [reflexivity |]. cbn. split; [reflexivity | discriminate].
Qed.

(** ** Further facts: what the standalone probe depends on and leaves *)

Section StandaloneMore.

Context {FS : Type} (P : Platform FS).

Lemma main_flags_have_excl :
  Z.land (main_flags P) (CInt.to_uint32 (COPYFILE_EXCL P))
  = CInt.to_uint32 (COPYFILE_EXCL P).
Proof.
  unfold main_flags, CInt.bor. rewrite to_uint32_lor.
  apply Z.bits_inj'. intros i _. rewrite Z.land_spec, Z.lor_spec.
  now destruct (Z.testbit (CInt.to_uint32 (COPYFILE_ALL P)) i),
    (Z.testbit (CInt.to_uint32 (COPYFILE_EXCL P)) i).
Qed.

Lemma bound_flags_have_excl :
  Z.land (bound_flags P) (CInt.to_uint32 (COPYFILE_EXCL P))
  = CInt.to_uint32 (COPYFILE_EXCL P).
Proof.
  unfold bound_flags, CInt.bor. rewrite !to_uint32_lor.
  apply Z.bits_inj'. intros i _. rewrite Z.land_spec, !Z.lor_spec.
  now destruct (Z.testbit (CInt.to_uint32 (COPYFILE_ALL P)) i),
    (Z.testbit (CInt.to_uint32 (COPYFILE_EXCL P)) i),
    (Z.testbit (CInt.to_uint32 COPYFILE_DEBUG) i).
Qed.

(** X1: what the standalone probe reports depends on the argument
    vector, the file system and what standard output has taken so far,
    and on nothing else: from two worlds that agree on these two,
    whatever errno, the console, [s], the live contexts and the call log
    hold and whatever the argument count says, it is defined in both or
    in neither, exits with the same code, and leaves the same errno, file
    system and standard output. *)
Theorem main_ignores_stale_state (argc argc' : Z) (argv : list string)
  (w1 w2 : World FS) :
  fs w1 = fs w2 ->
  stdout w1 = stdout w2 ->
  option_map fst (main P argc argv w1) = option_map fst (main P argc' argv w2) /\
  option_map (fun r => (errno (snd r), fs (snd r), stdout (snd r)))
             (main P argc argv w1)
  = option_map (fun r => (errno (snd r), fs (snd r), stdout (snd r)))
               (main P argc' argv w2).
Proof.
  intros Hfs Hout.
  destruct (slot argv 1) as [from |] eqn:Hfrom;
    [| now rewrite !main_undefined by now left].
  destruct (slot argv 2) as [to |] eqn:Hto;
    [| now rewrite !main_undefined by now right].
  rewrite !(main_run_slots P _ argv from to) by assumption.
  cbv zeta. rewrite Hfs, Hout. split; reflexivity.
Qed.

(** X2: a run of the standalone probe that is defined leaves the host's
    console, [s] and the live contexts as they were, logs exactly one call
    of the primitive, on the pointers of slots 1 and 2 with a null state,
    and exits with the errno it leaves. *)
Theorem main_frame (argc : Z) (argv : list string) (w w' : World FS) (e : Z) :
  main P argc argv w = Some (e, w') ->
  console w' = console w /\ s w' = s w /\ contexts w' = contexts w /\
  errno w' = e /\
  exists c : CopyCall,
    calls w' = (calls w ++ [c])%list /\
    slot argv 1 = Some (c_from c) /\ slot argv 2 = Some (c_to c) /\
    c_state c = NULL /\ c_flags c = main_flags P.
Proof.
  destruct (slot argv 1) as [from |] eqn:Hfrom;
    [| now rewrite main_undefined by now left].
  destruct (slot argv 2) as [to |] eqn:Hto;
    [| now rewrite main_undefined by now right].
  rewrite (main_run_slots P argc argv from to w Hfrom Hto). cbv zeta.
  intros [= <- <-]. cbn [console s contexts errno calls]. repeat split.
  eexists. split; [reflexivity |]. now repeat split.
Qed.

(** X3: a copy that fails (returns -1) without storing in errno makes
    the standalone probe print the failure with errno 0; the exit code
    is what [printf] then leaves in errno, which is 0 when [printf]
    stores nothing: the failure then does not show in the exit code. *)
Theorem main_failure_without_errno (argc : Z) (prog from to : string)
  (rest : list string) (w : World FS) :
  o_res (copyfile_prim P from to NULL (main_flags P) (fs w)) = (-1)%Z ->
  o_errno (copyfile_prim P from to NULL (main_flags P) (fs w)) = None ->
  exists (e : Z) (w' : World FS),
    main P argc (prog :: from :: to :: rest) w = Some (e, w') /\
    stdout w' = stdout w ++ "-1:0:" ++ strerror P 0 /\
    e = printf_leaves P (stdout w) ("-1:0:" ++ strerror P 0) 0 /\
    (printf_prim P (stdout w) ("-1:0:" ++ strerror P 0) = None -> e = 0%Z).
Proof.
  intros Hres Herr. rewrite main_run. cbv zeta.
  unfold errno_after. rewrite Hres, Herr. cbn [Z.eqb Pos.eqb Z.opp].
  change (Fmt.triple (-1) 0 (strerror P 0)) with ("-1:0:" ++ strerror P 0).
  eexists _, _. split; [reflexivity |]. cbn [stdout].
  repeat split. unfold printf_leaves. now intros ->.
Qed.

(** X4: a call that stores [e] in errno but does not return -1 (a copy
    that succeeds with errno set, or a failure reported by another value)
    makes the standalone probe exit with [e] and print nothing. *)
Theorem main_errno_without_failure (argc : Z) (prog from to : string)
  (rest : list string) (w : World FS) (e : Z) :
  o_res (copyfile_prim P from to NULL (main_flags P) (fs w)) <> (-1)%Z ->
  o_errno (copyfile_prim P from to NULL (main_flags P) (fs w)) = Some e ->
  exists w' : World FS,
    main P argc (prog :: from :: to :: rest) w = Some (e, w') /\
    stdout w' = stdout w.
Proof.
  intros Hres Herr. rewrite main_run. cbv zeta.
  unfold errno_after. rewrite Herr.
  apply Z.eqb_neq in Hres. rewrite Hres. eexists. split; reflexivity.
Qed.

(** X5: when the primitive honours exclusive create and creates its
    destination, the standalone probe cannot be run twice: after a run
    whose copy returned 0, which prints nothing, a second run with the
    same arguments finds the destination, prints that failure (-1,
    [EEXIST] and its text) and exits with what [printf] then leaves in
    errno: [EEXIST] when [printf] stores nothing. *)
Theorem main_twice (argc : Z) (prog from to : string) (rest : list string)
  (w : World FS) :
  honours_excl P ->
  creates_destination P ->
  o_res (copyfile_prim P from to NULL (main_flags P) (fs w)) = 0%Z ->
  exists (e1 e2 : Z) (w1 w2 : World FS),
    main P argc (prog :: from :: to :: rest) w = Some (e1, w1) /\
    stdout w1 = stdout w /\
    main P argc (prog :: from :: to :: rest) w1 = Some (e2, w2) /\
    stdout w2 = stdout w ++ Fmt.triple (-1) (EEXIST P) (strerror P (EEXIST P)) /\
    e2 = printf_leaves P (stdout w)
           (Fmt.triple (-1) (EEXIST P) (strerror P (EEXIST P))) (EEXIST P) /\
    (printf_prim P (stdout w)
       (Fmt.triple (-1) (EEXIST P) (strerror P (EEXIST P))) = None ->
     e2 = EEXIST P).
Proof.
  intros Hexcl Hmk Hres.
  pose proof (Hmk from to NULL (main_flags P) (fs w) Hres) as Hdst.
  set (o := copyfile_prim P from to NULL (main_flags P) (fs w)) in *.
  rewrite main_run. cbv zeta. fold o. rewrite Hres.
  eexists _, _, _, _. split; [reflexivity |]. cbn [stdout Z.eqb].
  split; [reflexivity |].
  rewrite main_run. cbv zeta. cbn [fs stdout].
  destruct (Hexcl from to NULL (main_flags P) (o_fs o) main_flags_have_excl Hdst)
    as [Hres2 Herr2].
  unfold errno_after. rewrite Hres2, Herr2. cbn [Z.eqb Pos.eqb Z.opp].
  repeat split. unfold printf_leaves. now intros ->.
Qed.

(** X13: the exit code of the standalone probe with two path arguments
    is errno as the last library call left it: after a call that does not
    return -1 it is the errno the copy call left (0 if the call stored
    nothing); after a call that returns -1 it is what [printf] leaves,
    which is the errno the copy call left exactly when [printf] stores
    nothing or stores that same value. *)
Theorem main_exit_code (argc : Z) (prog from to : string) (rest : list string)
  (w : World FS) :
  let o := copyfile_prim P from to NULL (main_flags P) (fs w) in
  let t := Fmt.triple (o_res o) (errno_after o) (strerror P (errno_after o)) in
  exists (e : Z) (w' : World FS),
    main P argc (prog :: from :: to :: rest) w = Some (e, w') /\
    e = (if (o_res o =? -1)%Z
         then printf_leaves P (stdout w) t (errno_after o)
         else errno_after o) /\
    (o_res o <> (-1)%Z -> e = errno_after o) /\
    (o_res o <> (-1)%Z -> o_errno o = None -> e = 0%Z) /\
    (o_res o = (-1)%Z ->
     (e = errno_after o
      <-> printf_prim P (stdout w) t = None
          \/ printf_prim P (stdout w) t = Some (errno_after o))).
Proof.
  intros o t. rewrite main_run. cbv zeta. fold o. fold t.
  eexists _, _. split; [reflexivity |]. split; [reflexivity |].
  destruct (Z.eqb_spec (o_res o) (-1)) as [Hres | Hres].
  - split; [intros Hne; contradiction |]. split; [intros Hne; contradiction |].
    intros _. unfold printf_leaves.
    destruct (printf_prim P (stdout w) t) as [e' |].
    + split; [intros ->; now right | intros [Hnone | [= ->]]; congruence].
    + split; [now left | reflexivity].
  - split; [reflexivity |]. split; [| intros Heq; contradiction].
    intros _ Herr. unfold errno_after. now rewrite Herr.
Qed.

End StandaloneMore.

(** ** Further facts: the bound probe, once and again *)

Section BoundMore.

Context {FS : Type} (P : Platform FS).

Lemma invocations_step {A : Type} (k : nat) (m : M FS A) (w : World FS) :
  invocations (S k) m w
  = match m w with
    | Some (a, w1) =>
        match invocations k m w1 with
        | Some (l, w2) => Some (a :: l, w2)
        | None => None
        end
    | None => None
    end.
Proof.
  cbn [invocations]. unfold bind, ret.
  destruct (m w) as [[a w1] |]; [| reflexivity].
  now destruct (invocations k m w1) as [[l w2] |].
Qed.

(** X6: what the bound probe prints depends on the file system alone:
    from two worlds with the same file system, whatever errno, [s], the
    live contexts and the channels hold, it appends the same line to the
    console and leaves the same errno and file system. *)
Theorem copyfile__depends_on_fs_only (w1 w2 : World FS) :
  fs w1 = fs w2 ->
  exists (w1' w2' : World FS) (t : string),
    copyfile_ P w1 = Some (R_NilValue, w1') /\
    copyfile_ P w2 = Some (R_NilValue, w2') /\
    console w1' = console w1 ++ t /\ console w2' = console w2 ++ t /\
    errno w1' = errno w2' /\ fs w1' = fs w2'.
Proof.
  intros Hfs. rewrite !copyfile__run. cbv zeta. rewrite Hfs.
  eexists _, _, _. split; [reflexivity |]. split; [reflexivity |].
  cbn [console errno fs]. repeat split.
Qed.

(** X7: [n] invocations of the bound probe return the null value [n]
    times, make [n] calls of the primitive, all of them ("a", "b", null
    state, the same option word), never write to standard output, and
    release no context: the contexts live before are still live, under
    at most [n] new ones. *)
Theorem copyfile__invocations (n : nat) (w : World FS) :
  exists (w' : World FS) (new : list positive),
    invocations n (copyfile_ P) w = Some (repeat R_NilValue n, w') /\
    calls w' = (calls w ++ repeat (mkCall "a" "b" NULL (bound_flags P)) n)%list /\
    stdout w' = stdout w /\
    contexts w' = (new ++ contexts w)%list /\
    (List.length new <= n)%nat.
Proof.
  revert w. induction n as [|k IH]; intros w.
  - exists w, []. cbn. rewrite app_nil_r. repeat split. lia.
  - rewrite invocations_step, copyfile__run. cbv beta iota zeta.
    match goal with
    | |- context [invocations k _ ?w1] =>
        destruct (IH w1) as (w' & new & Hrun & Hcalls & Hout & Hctx & Hlen)
    end.
    rewrite Hrun. cbn [calls stdout contexts] in Hcalls, Hout, Hctx.
    exists w'.
    destruct (copyfile_state_alloc_prim P (contexts w)) as [h |].
    + exists (new ++ [h])%list. split; [reflexivity |].
      rewrite Hcalls, Hout, Hctx, <- !app_assoc, length_app.
      cbn. repeat split. lia.
    + exists new. split; [reflexivity |].
      rewrite Hcalls, Hout, Hctx, <- app_assoc. cbn. repeat split. lia.
Qed.

(** X8: with an allocator that never fails and never answers a live
    context, [n] invocations of the bound probe leave [n] new live
    contexts, all different and none of them live before, on top of the
    ones that were live; after the last invocation [s] holds the newest,
    which differs from every other live context: the earlier ones are
    live and [s] no longer holds them. *)
Theorem copyfile__leaks (n : nat) (w : World FS) :
  allocates_fresh P ->
  exists (w' : World FS) (new : list positive),
    invocations n (copyfile_ P) w = Some (repeat R_NilValue n, w') /\
    contexts w' = (new ++ contexts w)%list /\
    List.length new = n /\
    NoDup new /\
    (forall h : positive, In h new -> ~ In h (contexts w)) /\
    match new with
    | [] => s w' = s w
    | h :: rest => s w' = Some h /\ ~ In h rest /\ ~ In h (contexts w)
    end.
Proof.
  intros Halloc. revert w. induction n as [|k IH]; intros w.
  - exists w, []. cbn. repeat split; try constructor. intros h [].
  - rewrite invocations_step, copyfile__run. cbv beta iota zeta.
    destruct (Halloc (contexts w)) as (h & Hh & Hfresh). rewrite Hh.
    match goal with
    | |- context [invocations k _ ?w1] =>
        destruct (IH w1) as (w' & new & Hrun & Hctx & Hlen & Hnodup & Hnew & Hs)
    end.
    cbn [contexts s] in Hctx, Hnew, Hs.
    rewrite Hrun. exists w', (new ++ [h])%list.
    assert (Hnoth : ~ In h new).
    { intros Hin. apply (Hnew h Hin). now left. }
    split; [reflexivity |].
    split; [now rewrite Hctx, <- app_assoc |].
    split; [rewrite length_app; cbn; lia |].
    split.
    { apply NoDup_app; trivial.
      - constructor; [intros [] | constructor].
      - intros a Ha [<- | []]. contradiction. }
    split.
    { intros a Ha. apply in_app_or in Ha. destruct Ha as [Ha | [<- | []]].
      - intros Hold. apply (Hnew a Ha). now right.
      - exact Hfresh. }
    destruct new as [|h' rest]; cbn [app].
    + now repeat split.
    + destruct Hs as (Hs & Hrest & Hold). split; [exact Hs |]. split.
      * intros Hin. apply in_app_or in Hin. destruct Hin as [Hin | [<- | []]].
        -- contradiction.
        -- apply Hold. now left.
      * intros Hin. apply Hold. now right.
Qed.

(** X9: when the primitive honours exclusive create and creates its
    destination, an invocation of the bound probe whose copy returned 0 is
    followed by one that reports the destination as existing: it prints
    -1, [EEXIST] and the text of [EEXIST]. *)
Theorem copyfile__twice (w : World FS) :
  honours_excl P ->
  creates_destination P ->
  o_res (copyfile_prim P "a" "b" NULL (bound_flags P) (fs w)) = 0%Z ->
  exists (w1 w2 : World FS),
    copyfile_ P w = Some (R_NilValue, w1) /\
    copyfile_ P w1 = Some (R_NilValue, w2) /\
    errno w2 = EEXIST P /\
    console w2
    = console w1 ++ Fmt.triple (-1) (EEXIST P) (strerror P (EEXIST P)) ++ Fmt.nl.
Proof.
  intros Hexcl Hmk Hres.
  pose proof (Hmk "a" "b" NULL (bound_flags P) (fs w) Hres) as Hdst.
  set (o := copyfile_prim P "a" "b" NULL (bound_flags P) (fs w)) in *.
  rewrite copyfile__run. cbv zeta. fold o.
  eexists _, _. split; [reflexivity |].
  rewrite copyfile__run. cbv zeta. cbn [fs console contexts].
  destruct (Hexcl "a" "b" NULL (bound_flags P) (o_fs o)
              (bound_flags_have_excl P) Hdst) as [Hres2 Herr2].
  unfold errno_after. rewrite Hres2, Herr2. cbn [errno console].
  repeat split.
Qed.

End BoundMore.

(** ** Further facts: the option words *)

Lemma bits_above_bound (x n i : Z) :
  (0 <= n)%Z -> (0 <= x < 2 ^ n)%Z -> (n <= i)%Z -> Z.testbit x i = false.
Proof.
  intros Hn Hx Hi. rewrite <- (Z.mod_small x (2 ^ n)) by exact Hx.
  apply Z.mod_pow2_bits_high. lia.
Qed.

Lemma lor_below_pow2 (a b n : Z) :
  (0 <= n)%Z -> (0 <= a < 2 ^ n)%Z -> (0 <= b < 2 ^ n)%Z ->
  (0 <= Z.lor a b < 2 ^ n)%Z.
Proof.
  intros Hn Ha Hb.
  assert (Hmod : Z.lor a b = (Z.lor a b mod 2 ^ n)%Z).
  { apply Z.bits_inj'. intros i Hi.
    rewrite Z.testbit_mod_pow2 by exact Hn.
    destruct (Z.ltb_spec i n) as [Hlt | Hge]; [reflexivity |].
    rewrite Z.lor_spec, (bits_above_bound a n i), (bits_above_bound b n i);
      trivial. }
  rewrite Hmod. apply Z.mod_pos_bound. lia.
Qed.

Lemma lor_sign_bit (x : Z) :
  (0 <= x < 2 ^ 31)%Z -> Z.lor x (2 ^ 31) = (x + 2 ^ 31)%Z.
Proof.
  intros Hx. rewrite <- Z.add_lor_land.
  assert (Hland : Z.land x (2 ^ 31) = 0%Z).
  { apply Z.bits_inj'. intros i Hi.
    rewrite Z.land_spec, pow2_31_testbit, Z.bits_0.
    destruct (Z.eqb_spec i 31) as [-> | Hne]; [| apply andb_false_r].
    rewrite (bits_above_bound x 31 31); trivial; lia. }
  rewrite Hland. lia.
Qed.

Section OptionWords.

Context {FS : Type} (P : Platform FS).

Lemma bound_flags_from_main_flags :
  bound_flags P = Z.lor (main_flags P) (2 ^ 31).
Proof.
  unfold bound_flags, main_flags, CInt.bor.
  now rewrite (to_uint32_lor _ COPYFILE_DEBUG), debug_as_uint32.
Qed.

(** X10: whatever the header's masks are, the option word each probe
    passes fits the 32-bit flags type, and the bound probe's always has
    bit 31 set: it is at least 2^31 and never the standalone probe's
    word with bit 31 clear. *)
Theorem option_words_fit :
  (0 <= main_flags P < 2 ^ 32)%Z /\
  (2 ^ 31 <= bound_flags P < 2 ^ 32)%Z /\
  Z.testbit (bound_flags P) 31 = true /\
  (Z.testbit (main_flags P) 31 = false -> bound_flags P <> main_flags P).
Proof.
  assert (Hmain : (0 <= main_flags P < 2 ^ 32)%Z).
  { unfold main_flags, CInt.to_uint32. apply Z.mod_pos_bound. lia. }
  assert (Hbit : Z.testbit (bound_flags P) 31 = true).
  { rewrite bound_flags_from_main_flags, Z.lor_spec, pow2_31_testbit.
    apply orb_true_r. }
  split; [exact Hmain |]. split; [split |].
  - rewrite bound_flags_from_main_flags.
    pose proof (Z.sub_lor_l_same_r (main_flags P) (2 ^ 31)) as Hsub.
    assert (0 <= Z.land (main_flags P) (Z.lnot (2 ^ 31)))%Z
      by (apply Z.land_nonneg; left; lia).
    lia.
  - unfold bound_flags, CInt.to_uint32. apply Z.mod_pos_bound. lia.
  - split; [exact Hbit |]. intros Hclear Heq. rewrite Heq in Hbit. congruence.
Qed.

(** X11: when the header's two masks are non-negative [int] values, the
    standalone probe's option word is their bitwise or and lies below
    2^31; the bound probe's option expression is negative as an [int],
    and the word the primitive receives from it is the standalone
    probe's plus 2^31. *)
Theorem option_words_of_int_masks :
  (0 <= COPYFILE_ALL P < 2 ^ 31)%Z ->
  (0 <= COPYFILE_EXCL P < 2 ^ 31)%Z ->
  main_flags P = Z.lor (COPYFILE_ALL P) (COPYFILE_EXCL P) /\
  (0 <= main_flags P < 2 ^ 31)%Z /\
  (CInt.bor (CInt.bor (COPYFILE_ALL P) (COPYFILE_EXCL P)) COPYFILE_DEBUG < 0)%Z /\
  bound_flags P = (main_flags P + 2 ^ 31)%Z.
Proof.
  intros Hall Hexcl.
  pose proof (lor_below_pow2 _ _ 31 ltac:(lia) Hall Hexcl) as Hlor.
  assert (Hmain : main_flags P = Z.lor (COPYFILE_ALL P) (COPYFILE_EXCL P)).
  { unfold main_flags, CInt.bor, CInt.to_uint32. apply Z.mod_small. lia. }
  split; [exact Hmain |]. split; [now rewrite Hmain |]. split.
  - unfold CInt.bor. apply Z.lor_neg. right. reflexivity.
  - rewrite bound_flags_from_main_flags. apply lor_sign_bit. now rewrite Hmain.
Qed.

End OptionWords.

(** ** Further facts: registration *)

Section Registration.

Context {FS : Type} (P : Platform FS).

(** X12: whatever the host holds for the library beforehand,
    [R_init_copyfile] is defined (the table's scan ends at its
    terminating entry) and leaves exactly one [.Call] routine, named
    "copyfile_", with 0 arguments, running the bound probe; it leaves the
    other three tables as they were and switches symbol search off,
    handle or not; running it again changes nothing. *)
Theorem R_init_copyfile_registers (dll : DllInfo FS) :
  exists d : DllInfo FS,
    R_init_copyfile P dll = Some d /\
    CallSymbols d = CallEntries P /\
    map (fun r => (name r, numArgs r)) (CallSymbols d) = [("copyfile_", 0%Z)] /\
    CSymbols d = CSymbols dll /\
    FortranSymbols d = FortranSymbols dll /\
    ExternalSymbols d = ExternalSymbols dll /\
    handle d = handle dll /\
    useDynamicSymbols d = false /\
    R_init_copyfile P d = Some d.
Proof.
  eexists. split; [reflexivity |]. cbn. repeat split.
Qed.

End Registration.

(** ** The further facts on the sample platforms *)

Lemma darwin_creates_destination : creates_destination Darwin.platform.
Proof.
  intros from to st fl fsys.
  change (copyfile_prim Darwin.platform from to st fl fsys)
    with (Darwin.copyfile_prim from to st fl fsys).
  change (path_exists Darwin.platform) with Darwin.path_exists.
  unfold Darwin.copyfile_prim, ptr.
  destruct (Z.testbit fl 17 && Darwin.path_exists fsys to); [discriminate |].
  destruct (Darwin.lookup fsys from) as [c |]; [| discriminate].
  intros _. cbn [o_fs]. unfold Darwin.path_exists. cbn [Darwin.lookup].
  now rewrite String.eqb_refl.
Qed.

Lemma darwin_allocates_fresh : allocates_fresh Darwin.platform.
Proof.
  intros live. eexists. split; [reflexivity |].
  assert (Hmax : forall h : positive,
             In h live -> (h <= fold_right Pos.max 1%positive live)%positive).
  { induction live as [|a live IH]; intros h; cbn [In fold_right].
    - intros [].
    - intros [<- | Hin].
      + apply Pos.le_max_l.
      + etransitivity; [apply (IH h Hin) | apply Pos.le_max_r]. }
  intros Hin. apply Hmax in Hin. lia.
Qed.

(** A stale errno, a console line, a value in [s] and a live context
    change nothing of what the standalone probe reports, here with
    standard output closed. *)
Lemma main_ignores_stale_state_on_darwin :
  option_map fst (main Darwin.closed_stdout 3 ["test"; "a"; "b"] Darwin.a_and_b)
  = option_map fst
      (main Darwin.closed_stdout 0 ["test"; "a"; "b"]
         (mkWorld 5 [("a", "data"); ("b", "old")] "" "line" (Some 7%positive)
                  [7%positive] [])).
Proof.
  exact (proj1 (main_ignores_stale_state Darwin.closed_stdout 3 0
                  ["test"; "a"; "b"] Darwin.a_and_b
                  (mkWorld 5 [("a", "data"); ("b", "old")] "" "line"
                           (Some 7%positive) [7%positive] [])
                  eq_refl eq_refl)).
Defined.

Lemma main_frame_on_darwin :
  match main Darwin.platform 3 ["test"; "a"; "b"] Darwin.only_a with
  | Some (e, w') =>
      console w' = console Darwin.only_a /\ contexts w' = contexts Darwin.only_a /\
      List.length (calls w') = 1%nat
  | None => False
  end.
Proof.
  destruct (main Darwin.platform 3 ["test"; "a"; "b"] Darwin.only_a)
    as [[e w'] |] eqn:Hrun.
  - destruct (main_frame Darwin.platform 3 _ _ _ _ Hrun)
      as (Hcons & _ & Hctx & _ & c & Hcalls & _).
    rewrite Hcalls. now repeat split.
  - discriminate Hrun.
Defined.

(** The primitive answers -1 and leaves errno alone: exit code 0, and a
    failure printed. *)
Lemma main_failure_without_errno_on_stub :
  exists (e : Z) (w' : World unit),
    main (Stub.platform (-1) None) 3 ["test"; "a"; "b"] Stub.world = Some (e, w') /\
    stdout w' = "-1:0:Undefined error: 0" /\
    e = 0%Z.
Proof.
  destruct (main_failure_without_errno (Stub.platform (-1) None) 3 "test" "a" "b"
              [] Stub.world eq_refl eq_refl)
    as (e & w' & Hrun & Hout & _ & Hzero).
  exists e, w'. split; [exact Hrun |]. split; [exact Hout |].
  apply Hzero. reflexivity.
Defined.

(** The primitive answers 0 and stores 22 in errno: exit code 22, nothing
    printed. *)
Lemma main_errno_without_failure_on_stub :
  exists w' : World unit,
    main (Stub.platform 0 (Some 22%Z)) 3 ["test"; "a"; "b"] Stub.world
    = Some (22%Z, w') /\
    stdout w' = "".
Proof.
  exact (main_errno_without_failure (Stub.platform 0 (Some 22%Z)) 3 "test" "a" "b"
           [] Stub.world 22 ltac:(discriminate) eq_refl).
Defined.

Lemma main_twice_on_darwin :
  exists (e1 e2 : Z) (w1 w2 : World Darwin.FS),
    main Darwin.platform 3 ["test"; "a"; "b"] Darwin.only_a = Some (e1, w1) /\
    stdout w1 = "" /\
    main Darwin.platform 3 ["test"; "a"; "b"] w1 = Some (e2, w2) /\
    stdout w2 = "-1:17:File exists" /\
    e2 = 17%Z.
Proof.
  destruct (main_twice Darwin.platform 3 "test" "a" "b" [] Darwin.only_a
              darwin_honours_excl darwin_creates_destination eq_refl)
    as (e1 & e2 & w1 & w2 & Hrun1 & Hout1 & Hrun2 & Hout2 & _ & Heexist).
  exists e1, e2, w1, w2. repeat split; trivial.
  apply Heexist. reflexivity.
Defined.

Lemma copyfile__depends_on_fs_only_on_darwin :
  exists (w1' w2' : World Darwin.FS) (t : string),
    copyfile_ Darwin.platform Darwin.a_and_b = Some (R_NilValue, w1') /\
    copyfile_ Darwin.platform
      (mkWorld 5 [("a", "data"); ("b", "old")] "earlier" "line" (Some 7%positive)
               [7%positive] [])
    = Some (R_NilValue, w2') /\
    console w1' = t /\ console w2' = "line" ++ t /\
    errno w1' = errno w2' /\ fs w1' = fs w2'.
Proof.
  exact (copyfile__depends_on_fs_only Darwin.platform Darwin.a_and_b
           (mkWorld 5 [("a", "data"); ("b", "old")] "earlier" "line"
                    (Some 7%positive) [7%positive] [])
           eq_refl).
Defined.

Lemma copyfile__leaks_on_darwin :
  exists (w' : World Darwin.FS) (new : list positive),
    invocations 3 (copyfile_ Darwin.platform) Darwin.only_a
    = Some ([R_NilValue; R_NilValue; R_NilValue], w') /\
    contexts w' = new /\ List.length new = 3%nat /\ NoDup new.
Proof.
  destruct (copyfile__leaks Darwin.platform 3 Darwin.only_a darwin_allocates_fresh)
    as (w' & new & Hrun & Hctx & Hlen & Hnodup & _).
  exists w', new. rewrite app_nil_r in Hctx. now repeat split.
Defined.

Lemma copyfile__twice_on_darwin :
  exists (w1 w2 : World Darwin.FS),
    copyfile_ Darwin.platform Darwin.only_a = Some (R_NilValue, w1) /\
    copyfile_ Darwin.platform w1 = Some (R_NilValue, w2) /\
    errno w2 = 17%Z /\
    console w2 = console w1 ++ "-1:17:File exists" ++ Fmt.nl.
Proof.
  exact (copyfile__twice Darwin.platform Darwin.only_a
           darwin_honours_excl darwin_creates_destination eq_refl).
Defined.

Lemma option_words_of_int_masks_on_darwin :
  main_flags Darwin.platform = Z.lor 15 (Z.shiftl 1 17) /\
  (0 <= main_flags Darwin.platform < 2 ^ 31)%Z /\
  (CInt.bor (CInt.bor 15 (Z.shiftl 1 17)) COPYFILE_DEBUG < 0)%Z /\
  bound_flags Darwin.platform = (main_flags Darwin.platform + 2 ^ 31)%Z.
Proof.
  apply (option_words_of_int_masks Darwin.platform);
    vm_compute; (split; [discriminate | reflexivity]).
Defined.
